(** * The 2D-over-3D sliding-window inferer of [2d_inference_3d_volume.ipynb]

    A shallow embedding of the class [YourSlidingWindowInferer], which
    subclasses MONAI's [SlidingWindowInferer] so that a model trained on 2D
    slices can be driven over a 3D volume.

    - Python integers are [Z]; a list or tuple of integers is [list Z].
    - A tensor is a view: a storage cell in a store together with a shape.
      [squeeze] and [unsqueeze] return views on the same storage, as in torch.
    - Python code runs in the monad [Py]: it threads the store and either
      returns a value or raises an exception.
    - The inherited [SlidingWindowInferer.__call__] is not part of the
      notebook; it is a parameter of the development ([super_call]). *)

From Stdlib Require Import ZArith String List Lia.
From stdpp Require Import base option list gmap.

Import ListNotations.
Local Open Scope Z_scope.

(** ** Python values, exceptions and the [Py] monad *)

Inductive PyExn : Type :=
| AssertionError (msg : string)
| RuntimeError (msg : string)
| TypeError (msg : string)
| IndexError (msg : string)
| OtherError (msg : string).

(** Values that may travel in [*args] and [**kwargs]. *)
Inductive PyVal : Type :=
| PyNone
| PyInt (z : Z)
| PyStr (s : string).

Abbreviation Args := (list PyVal).
Abbreviation Kwargs := (list (string * PyVal)).

(** The store: the contents of every tensor storage, by address. *)
Abbreviation World := (gmap nat (list Z)).

Inductive Outcome (A : Type) : Type :=
| Return (a : A)
| Raise (e : PyExn).
Arguments Return {A} a.
Arguments Raise {A} e.

Definition Py (A : Type) : Type := World -> Outcome A * World.

Definition raise {A : Type} (e : PyExn) : Py A := fun w => (Raise e, w).

#[export] Instance Py_ret : MRet Py := fun A a w => (Return a, w).

#[export] Instance Py_bind : MBind Py := fun A B f m w =>
  match m w with
  | (Return a, w') => f a w'
  | (Raise e, w') => (Raise e, w')
  end.

(** ** Python sequences *)

Definition py_len {A : Type} (l : list A) : Z := Z.of_nat (length l).

(** [list.insert(i, v)]: a negative index counts from the end, and an index
    outside the list is clamped to its nearest end. *)
Definition py_insert {A : Type} (l : list A) (i : Z) (v : A) : list A :=
  let n := py_len l in
  let i := if i <? 0 then Z.max 0 (i + n) else Z.min i n in
  take (Z.to_nat i) l ++ v :: drop (Z.to_nat i) l.

(** [l[i]]: a negative index counts from the end; out of range raises
    [IndexError]. *)
Definition py_getitem {A : Type} (l : list A) (i : Z) : Py A :=
  let n := py_len l in
  let j := if i <? 0 then i + n else i in
  if (j <? 0) || (n <=? j) then raise (IndexError "list index out of range")
  else match l !! Z.to_nat j with
       | Some v => mret v
       | None => raise (IndexError "list index out of range")
       end.

(** ** Tensors *)

Record Tensor : Type := mkTensor { storage : nat; shape : list Z }.

(** torch's dimension wrapping for a tensor with [n] admissible positions:
    [dim] must lie in [[-n, n-1]], and a negative [dim] counts from the end. *)
Definition wrap_dim (dim n : Z) : Py Z :=
  if (dim <? - n) || (n <=? dim)
  then raise (IndexError "Dimension out of range")
  else mret (if dim <? 0 then dim + n else dim).

(** [x.squeeze(dim=d)], as torch documents it: the axis is removed when its
    extent is 1 and the tensor is returned as it is otherwise; the result
    shares the storage of [x]. *)
Definition squeeze (x : Tensor) (dim : Z) : Py Tensor :=
  d ← wrap_dim dim (Z.max 1 (py_len (shape x)));
  match shape x !! Z.to_nat d with
  | Some 1 => mret (mkTensor (storage x) (delete (Z.to_nat d) (shape x)))
  | _ => mret x
  end.

(** [x.unsqueeze(dim=d)], as torch documents it: an axis of extent 1 is
    inserted at [d], which may range over [[-(rank+1), rank]]; the result
    shares the storage of [x]. *)
Definition unsqueeze (x : Tensor) (dim : Z) : Py Tensor :=
  d ← wrap_dim dim (py_len (shape x) + 1);
  mret (mkTensor (storage x) (take (Z.to_nat d) (shape x) ++ 1 :: drop (Z.to_nat d) (shape x))).

(** A network (or any predictor) is called as [network(x, *args, **kwargs)]. *)
Definition Network : Type := Tensor -> Args -> Kwargs -> Py Tensor.

(** ** The inferer *)

(** The instance attributes: [spatial_dim] is set by the subclass, the others
    by the inherited constructor from the keyword arguments the notebook
    passes ([roi_size], [sw_batch_size], [cval]). *)
Record YourSlidingWindowInferer : Type := mkInferer {
  spatial_dim : Z;
  roi_size : list Z;
  sw_batch_size : Z;
  cval : Z
}.

(** [__init__(self, spatial_dim=0, *args, **kwargs)] stores its argument and
    checks nothing. *)
Definition init (spatial_dim : Z) (roi_size : list Z) (sw_batch_size cval : Z)
  : YourSlidingWindowInferer :=
  mkInferer spatial_dim roi_size sw_batch_size cval.

Definition set_roi_size (self : YourSlidingWindowInferer) (roi : list Z)
  : YourSlidingWindowInferer :=
  mkInferer (spatial_dim self) roi (sw_batch_size self) (cval self).

Definition assert_msg : string :=
  "`spatial_dim` can only be `[D, H, W]` with `0, 1, 2` respectively".

Definition broadcast_msg : string :=
  "Currently, only 2D `roi_size` is supported, cannot broadcast to volume. ".

(** [network_wrapper(self, network, x, *args, **kwargs)] *)
Definition network_wrapper (self : YourSlidingWindowInferer) (network : Network)
    (x : Tensor) (args : Args) (kwargs : Kwargs) : Py Tensor :=
  extent ← py_getitem (roi_size self) (spatial_dim self);
  if extent =? 1 then
    x' ← squeeze x (spatial_dim self + 2);
    out ← network x' args kwargs;
    unsqueeze out (spatial_dim self + 2)
  else
    network x args kwargs.

(** [lambda x: self.network_wrapper(network, x)]: one positional parameter;
    Python raises [TypeError] if it is called with anything more. *)
Definition call_lambda (self : YourSlidingWindowInferer) (network : Network) : Network :=
  fun x args kwargs =>
    match args, kwargs with
    | [], [] => network_wrapper self network x [] []
    | _, _ => raise (TypeError "<lambda>() takes 1 positional argument")
    end.

Section Inferer.

(** The inherited [SlidingWindowInferer.__call__(self, inputs, network,
    *args, **kwargs)]: it reads the configuration of [self], tiles
    [inputs], calls [network] on the tiles and stitches the results. *)
Variable super_call :
  YourSlidingWindowInferer -> Tensor -> Network -> Args -> Kwargs -> Py Tensor.

(** [__call__(self, inputs, network, slice_axis=0, *args, **kwargs)].
    The instance is mutable: the result carries it next to the outcome and
    the store. *)
Definition call (self : YourSlidingWindowInferer) (inputs : Tensor)
    (network : Network) (slice_axis : Z) (args : Args) (kwargs : Kwargs)
    (w : World) : YourSlidingWindowInferer * Outcome Tensor * World :=
  let delegate (self : YourSlidingWindowInferer) :=
    let '(r, w') := super_call self inputs (call_lambda self network) [] [] w in
    (self, r, w') in
  if negb (spatial_dim self <? 3) then
    (self, Raise (AssertionError assert_msg), w)
  else if negb (py_len (roi_size self) =? py_len (drop 2 (shape inputs))) then
    if py_len (roi_size self) =? 2 then
      delegate (set_roi_size self (py_insert (roi_size self) (spatial_dim self) 1))
    else
      (self, Raise (RuntimeError broadcast_msg), w)
  else
    delegate self.

End Inferer.

(** The three components of the result of [call]. *)
Definition inferer_after (r : YourSlidingWindowInferer * Outcome Tensor * World)
  : YourSlidingWindowInferer := fst (fst r).
Definition outcome_of (r : YourSlidingWindowInferer * Outcome Tensor * World)
  : Outcome Tensor := snd (fst r).
Definition world_after (r : YourSlidingWindowInferer * Outcome Tensor * World)
  : World := snd r.

(** ** Specification vocabulary *)

(** The instance the inherited call receives: [None] when [call] raises
    before delegating, the instance with its region of interest brought to
    the rank of the input otherwise. *)
Definition effective (self : YourSlidingWindowInferer) (inputs : Tensor)
  : option YourSlidingWindowInferer :=
  if 3 <=? spatial_dim self then None
  else if py_len (roi_size self) =? py_len (drop 2 (shape inputs)) then Some self
  else if py_len (roi_size self) =? 2
       then Some (set_roi_size self (py_insert (roi_size self) (spatial_dim self) 1))
       else None.

(** The states an instance built as [self0] can be in after any number of
    calls, whatever their arguments, stores and outcomes. *)
Inductive after_calls
    (super_call : YourSlidingWindowInferer -> Tensor -> Network -> Args -> Kwargs -> Py Tensor)
    (self0 : YourSlidingWindowInferer) : YourSlidingWindowInferer -> Prop :=
| after_init : after_calls super_call self0 self0
| after_call self inputs network slice_axis args kwargs w :
    after_calls super_call self0 self ->
    after_calls super_call self0
      (inferer_after (call super_call self inputs network slice_axis args kwargs w)).

(** A computation leaves the storage at address [s] as it found it. *)
Definition preserves {A : Type} (s : nat) (m : Py A) : Prop :=
  forall w : World, snd (m w) !! s = w !! s.

(** What the wrapper relies on from the inherited sliding-window call: on a
    volume [(n, c, d, h, w)] and a rank-3 region of interest of positive
    extents, if the predictor maps every batch of tiles [(b, c, roi...)] to a
    batch [(b, c_out, roi...)], the stitched result is [(n, c_out, d, h, w)]. *)
Definition sliding_window_contract
    (super_call : YourSlidingWindowInferer -> Tensor -> Network -> Args -> Kwargs -> Py Tensor)
  : Prop :=
  forall self inputs (predictor : Network) (w : World) n c d h wd c_out,
    shape inputs = [n; c; d; h; wd] ->
    length (roi_size self) = 3%nat ->
    Forall (fun r => 0 < r) (roi_size self) ->
    (forall tile b w0, shape tile = b :: c :: roi_size self ->
       exists out w1, predictor tile [] [] w0 = (Return out, w1)
                      /\ shape out = b :: c_out :: roi_size self) ->
    exists out w', super_call self inputs predictor [] [] w = (Return out, w')
                   /\ shape out = [n; c_out; d; h; wd].

(** On a rank-5 volume and a rank-3 region of interest, the inherited call
    surfaces the error of a predictor that fails on every rank-5 batch of
    tiles. *)
Definition sliding_window_surfaces_errors
    (super_call : YourSlidingWindowInferer -> Tensor -> Network -> Args -> Kwargs -> Py Tensor)
  : Prop :=
  forall self inputs (predictor : Network) (w : World) e,
    length (shape inputs) = 5%nat ->
    length (roi_size self) = 3%nat ->
    (forall tile w0, length (shape tile) = 5%nat ->
       exists w1, predictor tile [] [] w0 = (Raise e, w1)) ->
    exists w', super_call self inputs predictor [] [] w = (Raise e, w').

(** ** A reference primitive and a reference network

    A degenerate sliding window with a single tile per volume, and a network
    that rewrites the channel count; they give the contracts above a model. *)
Module Reference.

Definition one_tile_call (self : YourSlidingWindowInferer) (inputs : Tensor)
    (predictor : Network) (args : Args) (kwargs : Kwargs) : Py Tensor :=
  match shape inputs with
  | n :: c :: spatial =>
      out ← predictor (mkTensor (storage inputs) (1 :: c :: roi_size self)) args kwargs;
      match shape out with
      | _ :: c_out :: _ => mret (mkTensor (storage out) (n :: c_out :: spatial))
      | _ => raise (RuntimeError "predictor output has no channel axis")
      end
  | _ => raise (RuntimeError "inputs has no batch and channel axes")
  end.

(** Maps [(b, c, spatial...)] to a fresh tensor [(b, c_out, spatial...)]
    stored at address [dst]. *)
Definition channel_net (c_out : Z) (dst : nat) : Network :=
  fun x _ _ w =>
    match shape x with
    | b :: _ :: spatial => (Return (mkTensor dst (b :: c_out :: spatial)), <[dst := []]> w)
    | _ => (Raise (RuntimeError "expected a batch and a channel axis"), w)
    end.

Definition failing_net (e : PyExn) : Network := fun _ _ _ => raise e.

Definition volume : Tensor := mkTensor 0 [1; 1; 64; 256; 256].
Definition axial_inferer : YourSlidingWindowInferer := init 0 [256; 256] 1 (-1).
Definition coronal_inferer : YourSlidingWindowInferer := init 1 [64; 256] 1 (-1).
Definition world0 : World := {[ 0%nat := [] ]}.

End Reference.

Example insert_axial : py_insert [256; 256] 0 1 = [1; 256; 256].
Proof. reflexivity. Qed.

Example insert_coronal : py_insert [64; 256] 1 1 = [64; 1; 256].
Proof. reflexivity. Qed.

Example insert_negative : py_insert [256; 256] (-1) 1 = [256; 1; 256].
Proof. reflexivity. Qed.

Example axial_run :
  call Reference.one_tile_call Reference.axial_inferer Reference.volume
       (Reference.channel_net 1 1) 0 [] [] Reference.world0
  = (set_roi_size Reference.axial_inferer [1; 256; 256],
     Return (mkTensor 1 [1; 1; 64; 256; 256]),
     <[1%nat := []]> Reference.world0).
Proof. reflexivity. Qed.

Example coronal_run :
  call Reference.one_tile_call Reference.coronal_inferer Reference.volume
       (Reference.channel_net 1 1) 0 [] [] Reference.world0
  = (set_roi_size Reference.coronal_inferer [64; 1; 256],
     Return (mkTensor 1 [1; 1; 64; 256; 256]),
     <[1%nat := []]> Reference.world0).
Proof. reflexivity. Qed.

(** ** Python sequences and tensor views: basic facts *)

(** Runs the [Py] monad one layer further. *)
Ltac py_run :=
  unfold mbind, mret, Py_bind, Py_ret, raise; cbn [orb andb negb fst snd]; cbv beta iota.

Lemma py_insert_in_range {A : Type} (l : list A) (i : Z) (v : A) :
  0 <= i <= py_len l ->
  py_insert l i v = take (Z.to_nat i) l ++ v :: drop (Z.to_nat i) l.
Proof.
  intros Hi. unfold py_insert.
  destruct (Z.ltb_spec i 0) as [Hneg | _]; [lia |].
  now rewrite Z.min_l by lia.
Qed.

Lemma py_insert_length {A : Type} (l : list A) (i : Z) (v : A) :
  length (py_insert l i v) = S (length l).
Proof.
  unfold py_insert. rewrite length_app. cbn [length].
  rewrite length_take, length_drop. lia.
Qed.

Lemma py_len_eq {A B : Type} (l : list A) (k : list B) :
  py_len l = py_len k <-> length l = length k.
Proof. unfold py_len. lia. Qed.

Lemma py_getitem_in_range {A : Type} (l : list A) (i : Z) (v : A) (w : World) :
  0 <= i -> l !! Z.to_nat i = Some v -> py_getitem l i w = (Return v, w).
Proof.
  intros Hi Hv. unfold py_getitem.
  pose proof (lookup_lt_Some _ _ _ Hv) as Hlt.
  destruct (Z.ltb_spec i 0) as [Hneg | _]; [lia |].
  destruct (Z.ltb_spec i 0) as [Hneg | _]; [lia |].
  destruct (Z.leb_spec (py_len l) i) as [Hge | _]; [unfold py_len in Hge; lia |].
  py_run. now rewrite Hv.
Qed.

Lemma unsqueeze_in_range (out : Tensor) (d : nat) (w : World) :
  (d <= length (shape out))%nat ->
  unsqueeze out (Z.of_nat d) w =
    (Return (mkTensor (storage out) (take d (shape out) ++ 1 :: drop d (shape out))), w).
Proof.
  intros Hd. unfold unsqueeze, wrap_dim, py_len.
  destruct (Z.ltb_spec (Z.of_nat d) (- (Z.of_nat (length (shape out)) + 1))) as [H | _]; [lia |].
  destruct (Z.leb_spec (Z.of_nat (length (shape out)) + 1) (Z.of_nat d)) as [H | _]; [lia |].
  py_run. destruct (Z.ltb_spec (Z.of_nat d) 0) as [H | _]; [lia |].
  now rewrite Nat2Z.id.
Qed.

(** ** The model adapter *)

(** On a batch of tiles shaped like the region of interest, with extent 1
    along [spatial_dim], the wrapper feeds the network the view without that
    axis and unsqueezes what the network returns. *)
Lemma network_wrapper_2d (self : YourSlidingWindowInferer) (network : Network)
    (x : Tensor) (args : Args) (kwargs : Kwargs) (w : World) (b c : Z) :
  0 <= spatial_dim self <= 2 ->
  shape x = b :: c :: roi_size self ->
  roi_size self !! Z.to_nat (spatial_dim self) = Some 1 ->
  network_wrapper self network x args kwargs w =
    (out ← network (mkTensor (storage x)
                      (b :: c :: delete (Z.to_nat (spatial_dim self)) (roi_size self)))
                   args kwargs;
     unsqueeze out (spatial_dim self + 2)) w.
Proof.
  destruct self as [sd roi bs cv], x as [st sh]. cbn [spatial_dim roi_size shape storage].
  intros Hsd -> Hone.
  unfold network_wrapper. cbn [spatial_dim roi_size].
  unfold mbind at 1, Py_bind at 1.
  rewrite (py_getitem_in_range roi sd 1 w) by (lia || assumption).
  change (1 =? 1) with true. cbv iota.
  assert (squeeze (mkTensor st (b :: c :: roi)) (sd + 2) w
          = (Return (mkTensor st (b :: c :: delete (Z.to_nat sd) roi)), w)) as Hsq.
  { apply lookup_lt_Some in Hone as Hlt.
    unfold squeeze, wrap_dim, py_len. cbn [shape storage length].
    destruct (Z.ltb_spec (sd + 2) (- Z.max 1 (Z.of_nat (S (S (length roi)))))) as [H | _]; [lia |].
    destruct (Z.leb_spec (Z.max 1 (Z.of_nat (S (S (length roi))))) (sd + 2)) as [H | _]; [lia |].
    py_run. destruct (Z.ltb_spec (sd + 2) 0) as [H | _]; [lia |].
    replace (Z.to_nat (sd + 2)) with (S (S (Z.to_nat sd))) by lia.
    change ((b :: c :: roi) !! S (S (Z.to_nat sd))) with (roi !! Z.to_nat sd).
    now rewrite Hone. }
  unfold mbind at 1, Py_bind at 1. now rewrite Hsq.
Qed.

(** With any other extent along [spatial_dim] the wrapper is the network. *)
Lemma network_wrapper_3d (self : YourSlidingWindowInferer) (network : Network)
    (x : Tensor) (args : Args) (kwargs : Kwargs) (w : World) (v : Z) :
  0 <= spatial_dim self ->
  roi_size self !! Z.to_nat (spatial_dim self) = Some v -> v <> 1 ->
  network_wrapper self network x args kwargs w = network x args kwargs w.
Proof.
  intros Hsd Hv Hne. unfold network_wrapper.
  unfold mbind at 1, Py_bind at 1.
  rewrite (py_getitem_in_range _ _ v w) by assumption.
  destruct (Z.eqb_spec v 1) as [-> | _]; [contradiction | reflexivity].
Qed.

(** C3. The model adapter: for a tile shaped like the normalized region of
    interest, if its extent along the slice axis is 1 the adapter removes
    axis [slice_axis + 2], calls the model on the 2D-spatial view (batch and
    channel kept) and puts an axis of extent 1 back at that position in the
    model's output; with any other extent the tile goes to the model as it
    is. *)
Theorem adapter_squeezes_or_passes (self : YourSlidingWindowInferer) (network : Network)
    (x : Tensor) (args : Args) (kwargs : Kwargs) (w : World) (b c : Z) :
  0 <= spatial_dim self <= 2 ->
  length (roi_size self) = 3%nat ->
  shape x = b :: c :: roi_size self ->
  let a := Z.to_nat (spatial_dim self) in
  let x2d := mkTensor (storage x) (b :: c :: delete a (roi_size self)) in
  (roi_size self !! a = Some 1 ->
     network_wrapper self network x args kwargs w =
       (out ← network x2d args kwargs; unsqueeze out (spatial_dim self + 2)) w
     /\ length (shape x2d) = 4%nat
     /\ forall (out : Tensor) (w' : World),
          (a + 2 <= length (shape out))%nat ->
          unsqueeze out (spatial_dim self + 2) w' =
            (Return (mkTensor (storage out)
                       (take (a + 2) (shape out) ++ 1 :: drop (a + 2) (shape out))), w'))
  /\ (forall v : Z, roi_size self !! a = Some v -> v <> 1 ->
        network_wrapper self network x args kwargs w = network x args kwargs w).
Proof.
  intros Hsd Hlen Hx a x2d. split.
  - intros Hone. split; [| split].
    + now apply network_wrapper_2d.
    + subst x2d. cbn [shape length]. rewrite length_delete by (rewrite Hone; eauto).
      rewrite Hlen. reflexivity.
    + intros out w' Hout.
      replace (spatial_dim self + 2) with (Z.of_nat (a + 2)) by (subst a; lia).
      now apply unsqueeze_in_range.
  - intros v Hv Hne. apply (network_wrapper_3d self network x args kwargs w v); [lia | assumption ..].
Qed.

Lemma adapter_squeezes_or_passes_witness :
  let self := set_roi_size Reference.axial_inferer [1; 256; 256] in
  let tile := mkTensor 0 [4; 1; 1; 256; 256] in
  network_wrapper self (Reference.channel_net 2 7) tile [] [] Reference.world0 =
    (Return (mkTensor 7 [4; 2; 1; 256; 256]), <[7%nat := []]> Reference.world0).
Proof.
  intros self tile.
  destruct (adapter_squeezes_or_passes self (Reference.channel_net 2 7) tile [] []
              Reference.world0 4 1) as [H2d _].
  - cbn. lia.
  - reflexivity.
  - reflexivity.
  - destruct (H2d eq_refl) as [Heq _]. rewrite Heq. reflexivity.
Defined.

(** ** The call *)

Section Call.

Variable super_call :
  YourSlidingWindowInferer -> Tensor -> Network -> Args -> Kwargs -> Py Tensor.

(** [call] either raises one of its own two errors and touches nothing, or
    hands over to the inherited call with the [effective] instance and
    returns whatever that produces. *)
Lemma call_effective (self : YourSlidingWindowInferer) (inputs : Tensor)
    (network : Network) (slice_axis : Z) (args : Args) (kwargs : Kwargs) (w : World) :
  call super_call self inputs network slice_axis args kwargs w =
    match effective self inputs with
    | Some self' =>
        (self',
         fst (super_call self' inputs (call_lambda self' network) [] [] w),
         snd (super_call self' inputs (call_lambda self' network) [] [] w))
    | None =>
        (self,
         Raise (if 3 <=? spatial_dim self then AssertionError assert_msg
                else RuntimeError broadcast_msg),
         w)
    end.
Proof.
  unfold call, effective.
  destruct (Z.ltb_spec (spatial_dim self) 3) as [Hlt | Hge];
    destruct (Z.leb_spec 3 (spatial_dim self)) as [Hge' | Hlt']; try lia; cbn [negb].
  - destruct (py_len (roi_size self) =? py_len (drop 2 (shape inputs))); cbn [negb].
    + now destruct (super_call self inputs _ [] [] w).
    + destruct (py_len (roi_size self) =? 2); [| reflexivity].
      now destruct (super_call _ inputs _ [] [] w).
  - reflexivity.
Qed.

Lemma assert_rejects (self : YourSlidingWindowInferer) (inputs : Tensor)
    (network : Network) (slice_axis : Z) (args : Args) (kwargs : Kwargs) (w : World) :
  3 <= spatial_dim self ->
  call super_call self inputs network slice_axis args kwargs w =
    (self, Raise (AssertionError assert_msg), w).
Proof.
  intros Hsd. unfold call.
  destruct (Z.ltb_spec (spatial_dim self) 3) as [Hlt | _]; [lia | reflexivity].
Qed.

Lemma effective_same_rank (self : YourSlidingWindowInferer) (inputs : Tensor) :
  spatial_dim self < 3 ->
  length (roi_size self) = length (drop 2 (shape inputs)) ->
  effective self inputs = Some self.
Proof.
  intros Hsd Hlen. unfold effective.
  destruct (Z.leb_spec 3 (spatial_dim self)) as [H | _]; [lia |].
  apply py_len_eq in Hlen. rewrite Hlen, Z.eqb_refl. reflexivity.
Qed.

Lemma effective_broadcast (self : YourSlidingWindowInferer) (inputs : Tensor) :
  spatial_dim self < 3 ->
  length (roi_size self) = 2%nat ->
  length (drop 2 (shape inputs)) <> 2%nat ->
  effective self inputs
  = Some (set_roi_size self (py_insert (roi_size self) (spatial_dim self) 1)).
Proof.
  intros Hsd Hroi Hin. unfold effective, py_len.
  destruct (Z.leb_spec 3 (spatial_dim self)) as [H | _]; [lia |].
  rewrite Hroi.
  destruct (Z.eqb_spec (Z.of_nat 2) (Z.of_nat (length (drop 2 (shape inputs))))) as [E | _];
    [lia | reflexivity].
Qed.

(** The instance after a call is the effective one, or the old one when the
    call raised before delegating. *)
Lemma inferer_after_call (self : YourSlidingWindowInferer) (inputs : Tensor)
    (network : Network) (slice_axis : Z) (args : Args) (kwargs : Kwargs) (w : World) :
  inferer_after (call super_call self inputs network slice_axis args kwargs w)
  = default self (effective self inputs).
Proof.
  rewrite call_effective. now destruct (effective self inputs).
Qed.

(** C1. Normalization of the region of interest: a rank-2 ROI on an input of
    spatial rank 3 becomes a rank-3 ROI with 1 at position [spatial_dim] and
    the two original extents, in order, at the other positions; a ROI whose
    rank is the input's spatial rank stays as it is. *)
Theorem roi_normalization (self : YourSlidingWindowInferer) (inputs : Tensor)
    (network : Network) (slice_axis : Z) (args : Args) (kwargs : Kwargs) (w : World) :
  let self' := inferer_after (call super_call self inputs network slice_axis args kwargs w) in
  (forall r0 r1 : Z,
     roi_size self = [r0; r1] ->
     0 <= spatial_dim self <= 2 ->
     length (drop 2 (shape inputs)) = 3%nat ->
     length (roi_size self') = 3%nat
     /\ roi_size self' !! Z.to_nat (spatial_dim self) = Some 1
     /\ delete (Z.to_nat (spatial_dim self)) (roi_size self') = [r0; r1]
     /\ effective self inputs = Some self')
  /\ (length (roi_size self) = length (drop 2 (shape inputs)) ->
      roi_size self' = roi_size self).
Proof.
  intros self'. subst self'. rewrite inferer_after_call. split.
  - intros r0 r1 Hroi Hsd Hin.
    rewrite effective_broadcast by (try rewrite Hroi; cbn; lia).
    cbn [default]. destruct self as [sd roi bs cv]. cbn [spatial_dim roi_size] in *. subst roi.
    unfold set_roi_size. cbn [roi_size spatial_dim].
    assert (sd = 0 \/ sd = 1 \/ sd = 2) as [-> | [-> | ->]] by lia; cbn; auto.
  - intros Hlen. unfold effective.
    destruct (3 <=? spatial_dim self); [reflexivity |].
    apply py_len_eq in Hlen. rewrite Hlen, Z.eqb_refl. reflexivity.
Qed.

(** C5. A ROI whose rank is neither 2 nor the spatial rank of the input
    makes the call raise the broadcast error; the inherited call is not
    reached: the instance and the store are as before, whatever
    [super_call] is. *)
Theorem unsupported_roi_rank (self : YourSlidingWindowInferer) (inputs : Tensor)
    (network : Network) (slice_axis : Z) (args : Args) (kwargs : Kwargs) (w : World) :
  spatial_dim self < 3 ->
  length (roi_size self) <> 2%nat ->
  length (roi_size self) <> length (drop 2 (shape inputs)) ->
  call super_call self inputs network slice_axis args kwargs w =
    (self, Raise (RuntimeError broadcast_msg), w).
Proof.
  intros Hsd H2 Hrank. unfold call, py_len.
  destruct (Z.ltb_spec (spatial_dim self) 3) as [_ | Hge]; [| lia]. cbn [negb].
  destruct (Z.eqb_spec (Z.of_nat (length (roi_size self)))
              (Z.of_nat (length (drop 2 (shape inputs))))) as [E | _]; [lia |].
  cbn [negb].
  destruct (Z.eqb_spec (Z.of_nat (length (roi_size self))) 2) as [E | _]; [lia | reflexivity].
Qed.

(** C6. The normalization is cached once: on an instance built with a rank-2
    ROI, a second call on a volume of spatial rank 3 leaves the instance (and
    so its ROI) as the first call left it, and hands the inherited call the
    same effective instance as the first call did. *)
Theorem normalization_cached (self : YourSlidingWindowInferer)
    (inputs1 inputs2 : Tensor) (network1 network2 : Network)
    (slice_axis1 slice_axis2 : Z) (args1 args2 : Args) (kwargs1 kwargs2 : Kwargs)
    (w1 w2 : World) :
  length (roi_size self) = 2%nat ->
  length (drop 2 (shape inputs1)) = 3%nat ->
  length (drop 2 (shape inputs2)) = 3%nat ->
  let self1 :=
    inferer_after (call super_call self inputs1 network1 slice_axis1 args1 kwargs1 w1) in
  let self2 :=
    inferer_after (call super_call self1 inputs2 network2 slice_axis2 args2 kwargs2 w2) in
  roi_size self2 = roi_size self1
  /\ self2 = self1
  /\ effective self1 inputs2 = effective self inputs1.
Proof.
  intros Hroi Hin1 Hin2 self1 self2. subst self1 self2.
  rewrite !inferer_after_call.
  destruct (Z.lt_ge_cases (spatial_dim self) 3) as [Hsd | Hsd].
  - pose proof (effective_broadcast self inputs1 Hsd Hroi) as E1.
    rewrite E1 by lia. simpl.
    set (self1 := set_roi_size self (py_insert (roi_size self) (spatial_dim self) 1)).
    assert (effective self1 inputs2 = Some self1) as E2.
    { apply effective_same_rank; [exact Hsd |].
      subst self1. unfold set_roi_size. cbn [roi_size]. rewrite py_insert_length. lia. }
    rewrite E2. auto.
  - assert (forall inputs, effective self inputs = None) as Hnone.
    { intros inputs. unfold effective.
      destruct (Z.leb_spec 3 (spatial_dim self)); [reflexivity | lia]. }
    rewrite (Hnone inputs1). cbn [default]. rewrite (Hnone inputs2). auto.
Qed.

(** C9. The [slice_axis] parameter of the call is never read: two calls that
    differ only in it have the same instance, outcome (value or error) and
    store. *)
Theorem slice_axis_argument_ignored (self : YourSlidingWindowInferer) (inputs : Tensor)
    (network : Network) (slice_axis slice_axis' : Z) (args : Args) (kwargs : Kwargs)
    (w : World) :
  call super_call self inputs network slice_axis args kwargs w =
  call super_call self inputs network slice_axis' args kwargs w.
Proof. reflexivity. Qed.

(** C10. Extra positional and keyword arguments of the call are dropped:
    any two calls that differ only in them agree, and the call is the one in
    which the inherited call ignores its own extra arguments and the network
    only ever sees empty ones. *)
Theorem extra_arguments_discarded (self : YourSlidingWindowInferer) (inputs : Tensor)
    (network : Network) (slice_axis : Z) (args : Args) (kwargs : Kwargs) (w : World) :
  (forall (args' : Args) (kwargs' : Kwargs),
     call super_call self inputs network slice_axis args kwargs w =
     call super_call self inputs network slice_axis args' kwargs' w)
  /\ call super_call self inputs network slice_axis args kwargs w =
     call (fun s i p _ _ => super_call s i p [] []) self inputs
          (fun x _ _ => network x [] []) slice_axis [] [] w.
Proof. split; reflexivity. Qed.

(** Inserting the unit extent into a pair of extents, position by position. *)
Lemma py_insert_pair (r0 r1 sd : Z) :
  0 <= sd <= 2 ->
  py_insert [r0; r1] sd 1 !! Z.to_nat sd = Some 1
  /\ delete (Z.to_nat sd) (py_insert [r0; r1] sd 1) = [r0; r1]
  /\ forall b c : Z,
       take (Z.to_nat sd + 2) [b; c; r0; r1] ++ 1 :: drop (Z.to_nat sd + 2) [b; c; r0; r1]
       = b :: c :: py_insert [r0; r1] sd 1.
Proof.
  intros Hsd.
  assert (sd = 0 \/ sd = 1 \/ sd = 2) as [-> | [-> | ->]] by lia;
    repeat split; reflexivity.
Qed.

(** The adapter of a rank-2 ROI normalized for slice axis 0, 1 or 2 maps a
    batch of tiles [(b, c, roi...)] to [(b, c_out, roi...)] when the 2D
    network maps [(b, c, r0, r1)] to [(b, c_out, r0, r1)]. *)
Lemma call_lambda_tile_shape (self : YourSlidingWindowInferer) (network : Network)
    (r0 r1 c c_out : Z) :
  roi_size self = [r0; r1] ->
  0 <= spatial_dim self <= 2 ->
  (forall x b w0, shape x = [b; c; r0; r1] ->
     exists out w1, network x [] [] w0 = (Return out, w1) /\ shape out = [b; c_out; r0; r1]) ->
  let self' := set_roi_size self (py_insert (roi_size self) (spatial_dim self) 1) in
  forall tile b w0, shape tile = b :: c :: roi_size self' ->
    exists out w1, call_lambda self' network tile [] [] w0 = (Return out, w1)
                   /\ shape out = b :: c_out :: roi_size self'.
Proof.
  intros Hroi Hsd Hnet self' tile b w0 Htile.
  change (call_lambda self' network tile [] [] w0)
    with (network_wrapper self' network tile [] [] w0).
  destruct (py_insert_pair r0 r1 (spatial_dim self) Hsd) as (Hone & Hdel & Hins).
  assert (roi_size self' = py_insert [r0; r1] (spatial_dim self) 1) as Hroi'
    by (subst self'; unfold set_roi_size; cbn [roi_size]; now rewrite Hroi).
  assert (spatial_dim self' = spatial_dim self) as Hsd' by reflexivity.
  rewrite (network_wrapper_2d self' network tile [] [] w0 b c);
    [ | rewrite Hsd'; exact Hsd | exact Htile | rewrite Hsd', Hroi'; exact Hone ].
  rewrite Hsd', Hroi', Hdel.
  destruct (Hnet (mkTensor (storage tile) [b; c; r0; r1]) b w0 eq_refl)
    as (out & w1 & Hrun & Hshape).
  unfold mbind, Py_bind. rewrite Hrun.
  replace (spatial_dim self + 2) with (Z.of_nat (Z.to_nat (spatial_dim self) + 2)) by lia.
  rewrite unsqueeze_in_range by (rewrite Hshape; cbn [length]; lia).
  eexists _, w1. split; [reflexivity |]. cbn [shape]. rewrite Hshape. apply Hins.
Qed.

(** C2. Output shape: with an inherited call that meets
    [sliding_window_contract], a volume [(n, c, d, h, w)], a rank-2 ROI of
    positive extents, a slice axis among 0, 1, 2 and a 2D network with
    [c_out] output channels, the call returns a volume [(n, c_out, d, h, w)]. *)
Theorem output_shape (self : YourSlidingWindowInferer) (inputs : Tensor)
    (network : Network) (slice_axis : Z) (args : Args) (kwargs : Kwargs) (w : World)
    (n c d h wd c_out r0 r1 : Z) :
  sliding_window_contract super_call ->
  shape inputs = [n; c; d; h; wd] ->
  roi_size self = [r0; r1] -> 0 < r0 -> 0 < r1 ->
  0 <= spatial_dim self <= 2 ->
  (forall x b w0, shape x = [b; c; r0; r1] ->
     exists out w1, network x [] [] w0 = (Return out, w1) /\ shape out = [b; c_out; r0; r1]) ->
  exists out : Tensor,
    outcome_of (call super_call self inputs network slice_axis args kwargs w) = Return out
    /\ shape out = [n; c_out; d; h; wd].
Proof.
  intros Hsw Hin Hroi Hr0 Hr1 Hsd Hnet.
  rewrite call_effective.
  rewrite effective_broadcast by (rewrite ?Hroi, ?Hin; cbn; lia).
  set (self' := set_roi_size self (py_insert (roi_size self) (spatial_dim self) 1)).
  destruct (Hsw self' inputs (call_lambda self' network) w n c d h wd c_out Hin)
    as (out & w' & Hrun & Hshape).
  - subst self'. unfold set_roi_size. cbn [roi_size]. rewrite py_insert_length, Hroi. reflexivity.
  - subst self'. unfold set_roi_size. cbn [roi_size]. rewrite Hroi.
    assert (spatial_dim self = 0 \/ spatial_dim self = 1 \/ spatial_dim self = 2)
      as [-> | [-> | ->]] by lia;
      cbn; repeat constructor; lia.
  - exact (call_lambda_tile_shape self network r0 r1 c c_out Hroi Hsd Hnet).
  - exists out. unfold outcome_of. cbn [fst snd]. rewrite Hrun. auto.
Qed.

(** *** Errors *)

Lemma py_getitem_pure {A : Type} (l : list A) (i : Z) (w : World) :
  snd (py_getitem l i w) = w.
Proof.
  unfold py_getitem.
  destruct ((_ <? 0) || (_ <=? _)); [reflexivity |].
  now destruct (l !! _).
Qed.

Lemma squeeze_pure (x : Tensor) (dim : Z) (w : World) : snd (squeeze x dim w) = w.
Proof.
  unfold squeeze, wrap_dim. py_run.
  destruct ((_ <? - _) || (_ <=? _)); [reflexivity |].
  destruct (shape x !! _) as [[| [| |] |] |]; reflexivity.
Qed.

Lemma unsqueeze_pure (x : Tensor) (dim : Z) (w : World) : snd (unsqueeze x dim w) = w.
Proof.
  unfold unsqueeze, wrap_dim. py_run.
  destruct ((_ <? - _) || (_ <=? _)); reflexivity.
Qed.

(** An error of the network is the error of the adapter, together with the
    store of the one network call that raised it. *)
Lemma network_wrapper_raises (self : YourSlidingWindowInferer) (network : Network)
    (x : Tensor) (args : Args) (kwargs : Kwargs) (w : World) (extent : Z) (e : PyExn)
    (w' : World) :
  py_getitem (roi_size self) (spatial_dim self) w = (Return extent, w) ->
  (if extent =? 1
   then exists x', squeeze x (spatial_dim self + 2) w = (Return x', w)
                   /\ network x' args kwargs w = (Raise e, w')
   else network x args kwargs w = (Raise e, w')) ->
  network_wrapper self network x args kwargs w = (Raise e, w').
Proof.
  intros Hget Hnet. unfold network_wrapper.
  unfold mbind at 1, Py_bind at 1. rewrite Hget.
  destruct (extent =? 1).
  - destruct Hnet as (x' & Hsq & Hrun).
    unfold mbind at 1, Py_bind at 1. rewrite Hsq.
    unfold mbind, Py_bind. now rewrite Hrun.
  - exact Hnet.
Qed.

(** A network that fails on every input makes the adapter fail the same way
    on every rank-5 batch of tiles, for a ROI of rank 3. *)
Lemma call_lambda_raises (self : YourSlidingWindowInferer) (network : Network)
    (e : PyExn) :
  0 <= spatial_dim self <= 2 ->
  length (roi_size self) = 3%nat ->
  (forall x a k w0, exists w1, network x a k w0 = (Raise e, w1)) ->
  forall tile w0, length (shape tile) = 5%nat ->
    exists w1, call_lambda self network tile [] [] w0 = (Raise e, w1).
Proof.
  intros Hsd Hlen Hnet tile w0 Htile.
  change (call_lambda self network tile [] [] w0)
    with (network_wrapper self network tile [] [] w0).
  destruct (lookup_lt_is_Some_2 (roi_size self) (Z.to_nat (spatial_dim self)))
    as [extent Hext]; [lia |].
  pose proof (py_getitem_in_range _ _ extent w0 (proj1 Hsd) Hext) as Hget.
  destruct (Z.eqb_spec extent 1) as [-> | Hne].
  - destruct (squeeze tile (spatial_dim self + 2) w0) as [[x' | e'] w1] eqn:Hsq.
    + pose proof (squeeze_pure tile (spatial_dim self + 2) w0) as Hw.
      rewrite Hsq in Hw. cbn [snd] in Hw. subst w1.
      destruct (Hnet x' [] [] w0) as [w1 Hrun].
      exists w1. apply (network_wrapper_raises self network tile [] [] w0 1 e w1 Hget).
      cbn. eauto.
    + exfalso. revert Hsq. unfold squeeze, wrap_dim, py_len. rewrite Htile.
      destruct (Z.ltb_spec (spatial_dim self + 2) (- Z.max 1 (Z.of_nat 5))) as [H | _]; [lia |].
      destruct (Z.leb_spec (Z.max 1 (Z.of_nat 5)) (spatial_dim self + 2)) as [H | _]; [lia |].
      py_run. destruct (shape tile !! _) as [[| [| |] |] |]; discriminate.
  - destruct (Hnet tile [] [] w0) as [w1 Hrun].
    exists w1. apply (network_wrapper_raises self network tile [] [] w0 extent e w1 Hget).
    destruct (Z.eqb_spec extent 1); [contradiction | exact Hrun].
Qed.

(** C7. Errors propagate unchanged, with no retry and no partial result:
    (1) an error the network raises inside the adapter is the adapter's
    outcome, with the store as that single network call left it;
    (2) an error the inherited call raises is the outcome of the call, with
    the store as the inherited call left it;
    (3) when the inherited call surfaces the error of a predictor that fails
    on every batch of tiles, an always-failing network makes the call on a
    configured instance raise that very error. *)
Theorem errors_propagate (self : YourSlidingWindowInferer) (inputs : Tensor)
    (network : Network) (slice_axis : Z) (args : Args) (kwargs : Kwargs) (w : World)
    (e : PyExn) :
  (forall (x : Tensor) (a : Args) (k : Kwargs) (w0 w1 : World) (extent : Z),
     py_getitem (roi_size self) (spatial_dim self) w0 = (Return extent, w0) ->
     (if extent =? 1
      then exists x', squeeze x (spatial_dim self + 2) w0 = (Return x', w0)
                      /\ network x' a k w0 = (Raise e, w1)
      else network x a k w0 = (Raise e, w1)) ->
     network_wrapper self network x a k w0 = (Raise e, w1))
  /\ (forall (self' : YourSlidingWindowInferer) (w' : World),
        effective self inputs = Some self' ->
        super_call self' inputs (call_lambda self' network) [] [] w = (Raise e, w') ->
        call super_call self inputs network slice_axis args kwargs w = (self', Raise e, w'))
  /\ (sliding_window_surfaces_errors super_call ->
      0 <= spatial_dim self <= 2 ->
      length (shape inputs) = 5%nat ->
      length (roi_size self) = 2%nat \/ length (roi_size self) = 3%nat ->
      (forall x a k w0, exists w1, network x a k w0 = (Raise e, w1)) ->
      exists self' w',
        call super_call self inputs network slice_axis args kwargs w = (self', Raise e, w')).
Proof.
  split; [| split].
  - intros x a k w0 w1 extent Hget Hnet.
    now apply (network_wrapper_raises self network x a k w0 extent e w1).
  - intros self' w' Heff Hrun. rewrite call_effective, Heff, Hrun. reflexivity.
  - intros Hsurf Hsd Hin Hroi Hnet.
    assert (length (drop 2 (shape inputs)) = 3%nat) as Hspatial
      by (rewrite length_drop, Hin; reflexivity).
    assert (exists self', effective self inputs = Some self'
                          /\ spatial_dim self' = spatial_dim self
                          /\ length (roi_size self') = 3%nat) as (self' & Heff & Hsd' & Hlen').
    { destruct Hroi as [H2 | H3].
      - eexists. split; [apply effective_broadcast; lia |].
        split; [reflexivity |]. unfold set_roi_size. cbn [roi_size].
        rewrite py_insert_length. lia.
      - exists self. split; [apply effective_same_rank; lia | auto]. }
    destruct (Hsurf self' inputs (call_lambda self' network) w e Hin Hlen') as [w' Hrun].
    { intros tile w0 Htile. apply call_lambda_raises; try assumption; lia. }
    exists self', w'. rewrite call_effective, Heff, Hrun. reflexivity.
Qed.

(** *** Determinism and the input volume *)

Lemma preserves_bind {A B : Type} (s : nat) (m : Py A) (f : A -> Py B) :
  preserves s m -> (forall a, preserves s (f a)) -> preserves s (m ≫= f).
Proof.
  intros Hm Hf w. specialize (Hm w). unfold mbind, Py_bind.
  destruct (m w) as [[a | e] w1]; cbn [snd] in *.
  - now rewrite Hf.
  - exact Hm.
Qed.

Lemma preserves_pure {A : Type} (s : nat) (m : Py A) :
  (forall w, snd (m w) = w) -> preserves s m.
Proof. intros H w. now rewrite H. Qed.

(** The adapter writes to the store only through the network. *)
Lemma network_wrapper_preserves (s : nat) (self : YourSlidingWindowInferer)
    (network : Network) (x : Tensor) (args : Args) (kwargs : Kwargs) :
  (forall x' a k, preserves s (network x' a k)) ->
  preserves s (network_wrapper self network x args kwargs).
Proof.
  intros Hnet. unfold network_wrapper.
  apply preserves_bind; [apply preserves_pure, py_getitem_pure |].
  intros extent. destruct (extent =? 1); [| apply Hnet].
  apply preserves_bind; [apply preserves_pure, squeeze_pure |].
  intros x'. apply preserves_bind; [apply Hnet |].
  intros out. apply preserves_pure, unsqueeze_pure.
Qed.

Lemma call_lambda_preserves (s : nat) (self : YourSlidingWindowInferer)
    (network : Network) :
  (forall x' a k, preserves s (network x' a k)) ->
  forall x a k, preserves s (call_lambda self network x a k).
Proof.
  intros Hnet x a k. unfold call_lambda.
  destruct a; [destruct k |]; try (intros w; reflexivity).
  now apply network_wrapper_preserves.
Qed.

(** An instance is in one of two states: as built, or with its rank-2 ROI
    normalized. *)
Lemma after_calls_inv (self0 self : YourSlidingWindowInferer) :
  after_calls super_call self0 self ->
  self = self0
  \/ (spatial_dim self0 < 3
      /\ length (roi_size self0) = 2%nat
      /\ self = set_roi_size self0 (py_insert (roi_size self0) (spatial_dim self0) 1)).
Proof.
  induction 1 as [| self inputs network slice_axis args kwargs w Hreach IH].
  - now left.
  - rewrite inferer_after_call. unfold effective, py_len.
    destruct IH as [-> | (Hsd & Hroi & ->)].
    + destruct (Z.leb_spec 3 (spatial_dim self0)); [now left |].
      destruct (Z.eqb_spec (Z.of_nat (length (roi_size self0)))
                  (Z.of_nat (length (drop 2 (shape inputs))))); [now left |].
      destruct (Z.eqb_spec (Z.of_nat (length (roi_size self0))) 2); [| now left].
      right. repeat split; [lia | lia].
    + right. repeat split; try assumption.
      unfold set_roi_size. cbn [spatial_dim roi_size].
      destruct (Z.leb_spec 3 (spatial_dim self0)); [reflexivity |].
      destruct (Z.eqb_spec (Z.of_nat (length (py_insert (roi_size self0) (spatial_dim self0) 1)))
                  (Z.of_nat (length (drop 2 (shape inputs))))); [reflexivity |].
      rewrite py_insert_length, Hroi. reflexivity.
Qed.

(** On a volume of spatial rank 3 the history of the instance does not show. *)
Lemma call_after_calls (self0 self : YourSlidingWindowInferer) (inputs : Tensor)
    (network : Network) (slice_axis : Z) (args : Args) (kwargs : Kwargs) (w : World) :
  after_calls super_call self0 self ->
  length (drop 2 (shape inputs)) = 3%nat ->
  call super_call self inputs network slice_axis args kwargs w =
  call super_call self0 inputs network slice_axis args kwargs w.
Proof.
  intros Hreach Hin.
  destruct (after_calls_inv self0 self Hreach) as [-> | (Hsd & Hroi & ->)]; [reflexivity |].
  rewrite !call_effective.
  rewrite (effective_broadcast self0 inputs) by lia.
  rewrite effective_same_rank; [reflexivity | exact Hsd |].
  unfold set_roi_size. cbn [roi_size]. rewrite py_insert_length. lia.
Qed.

(** C8. Determinism and the input volume: two instances built with the same
    configuration, whatever calls each has served since, give the same
    result (instance, outcome, store) on the same volume of spatial rank 3
    with the same network from the same store; and when neither the network
    nor the inherited call writes to the storage of the input volume, the
    call leaves that storage as it found it. *)
Theorem deterministic_and_input_untouched (self0 self1 self2 : YourSlidingWindowInferer)
    (inputs : Tensor) (network : Network) (slice_axis : Z) (args : Args)
    (kwargs : Kwargs) (w : World) :
  after_calls super_call self0 self1 ->
  after_calls super_call self0 self2 ->
  length (drop 2 (shape inputs)) = 3%nat ->
  call super_call self1 inputs network slice_axis args kwargs w =
  call super_call self2 inputs network slice_axis args kwargs w
  /\ ((forall x a k, preserves (storage inputs) (network x a k)) ->
      (forall self' (predictor : Network),
         (forall x a k, preserves (storage inputs) (predictor x a k)) ->
         preserves (storage inputs) (super_call self' inputs predictor [] [])) ->
      world_after (call super_call self1 inputs network slice_axis args kwargs w)
        !! storage inputs = w !! storage inputs).
Proof.
  intros H1 H2 Hin. split.
  - rewrite (call_after_calls self0 self1), (call_after_calls self0 self2) by assumption.
    reflexivity.
  - intros Hnet Hsuper. rewrite call_effective.
    destruct (effective self1 inputs) as [self' |]; [| reflexivity].
    unfold world_after. cbn [snd].
    apply (Hsuper self' (call_lambda self' network)).
    now apply call_lambda_preserves.
Qed.

End Call.

(** ** The slice-axis check *)

(** C4. The call-time check lets a negative [spatial_dim] through: built with
    [spatial_dim = -1] and ROI (256, 256), the call raises no assertion error
    on the volume (1, 1, 64, 256, 256); it rewrites the ROI to
    [256; 1; 256] and delegates, and its adapter then hands every tile to the
    network unsqueezed. With the reference primitive the call returns a
    volume. *)
Theorem negative_spatial_dim_not_rejected :
  let self := init (-1) [256; 256] 1 (-1) in
  let self' := init (-1) [256; 1; 256] 1 (-1) in
  (forall super_call (network : Network) (slice_axis : Z) (args : Args) (kwargs : Kwargs)
          (w : World),
     call super_call self Reference.volume network slice_axis args kwargs w =
       (self',
        fst (super_call self' Reference.volume (call_lambda self' network) [] [] w),
        snd (super_call self' Reference.volume (call_lambda self' network) [] [] w)))
  /\ (forall (network : Network) (x : Tensor) (w : World),
        call_lambda self' network x [] [] w = network x [] [] w)
  /\ call Reference.one_tile_call self Reference.volume (Reference.channel_net 1 1)
          0 [] [] Reference.world0
     = (self', Return (mkTensor 1 [1; 1; 64; 256; 256]), <[1%nat := []]> Reference.world0).
Proof.
  intros self self'. split; [| split].
  - intros super_call network slice_axis args kwargs w.
    rewrite call_effective. reflexivity.
  - intros network x w. reflexivity.
  - reflexivity.
Qed.

(** ** The reference primitive meets the contracts *)

Lemma one_tile_meets_contract : sliding_window_contract Reference.one_tile_call.
Proof.
  intros self inputs predictor w n c d h wd c_out Hin Hlen Hpos Hpred.
  unfold Reference.one_tile_call. rewrite Hin.
  destruct (Hpred (mkTensor (storage inputs) (1 :: c :: roi_size self)) 1 w eq_refl)
    as (out & w1 & Hrun & Hshape).
  unfold mbind, Py_bind. rewrite Hrun, Hshape.
  eexists _, w1. split; reflexivity.
Qed.

Lemma one_tile_surfaces_errors : sliding_window_surfaces_errors Reference.one_tile_call.
Proof.
  intros self inputs predictor w e Hin Hroi Hpred.
  unfold Reference.one_tile_call.
  destruct (shape inputs) as [| n [| c spatial]]; [discriminate Hin .. |].
  destruct (Hpred (mkTensor (storage inputs) (1 :: c :: roi_size self)) w) as [w1 Hrun].
  { cbn [shape length]. now rewrite Hroi. }
  exists w1. unfold mbind, Py_bind. now rewrite Hrun.
Qed.

Lemma one_tile_preserves (s : nat) (self : YourSlidingWindowInferer) (inputs : Tensor)
    (predictor : Network) :
  (forall x a k, preserves s (predictor x a k)) ->
  preserves s (Reference.one_tile_call self inputs predictor [] []).
Proof.
  intros Hpred. unfold Reference.one_tile_call.
  destruct (shape inputs) as [| n [| c spatial]]; try (intros w; reflexivity).
  apply preserves_bind; [apply Hpred |].
  intros out. destruct (shape out) as [| b [| c_out rest]]; intros w; reflexivity.
Qed.

Lemma channel_net_shape (c_out : Z) (dst : nat) (x : Tensor) (b c : Z)
    (spatial : list Z) (w0 : World) :
  shape x = b :: c :: spatial ->
  exists out w1, Reference.channel_net c_out dst x [] [] w0 = (Return out, w1)
                 /\ shape out = b :: c_out :: spatial.
Proof.
  intros Hx. unfold Reference.channel_net. rewrite Hx.
  eexists _, _. split; reflexivity.
Qed.

Lemma channel_net_preserves (c_out : Z) (dst s : nat) (x : Tensor) (a : Args) (k : Kwargs) :
  dst <> s -> preserves s (Reference.channel_net c_out dst x a k).
Proof.
  intros Hne w. unfold Reference.channel_net.
  destruct (shape x) as [| b [| c spatial]]; cbn [snd]; try reflexivity.
  now apply lookup_insert_ne.
Qed.

(** ** The theorems at the notebook's configurations *)

Lemma roi_normalization_witness :
  roi_size (inferer_after (call Reference.one_tile_call Reference.coronal_inferer
                             Reference.volume (Reference.channel_net 1 1) 0 [] []
                             Reference.world0)) !! 1%nat = Some 1
  /\ roi_size (inferer_after (call Reference.one_tile_call
                                (set_roi_size Reference.axial_inferer [1; 256; 256])
                                Reference.volume (Reference.channel_net 1 1) 0 [] []
                                Reference.world0)) = [1; 256; 256].
Proof.
  split.
  - destruct (roi_normalization Reference.one_tile_call Reference.coronal_inferer
                Reference.volume (Reference.channel_net 1 1) 0 [] [] Reference.world0)
      as [H _].
    destruct (H 64 256) as (_ & Hone & _); [reflexivity | cbn; lia | reflexivity |].
    exact Hone.
  - destruct (roi_normalization Reference.one_tile_call
                (set_roi_size Reference.axial_inferer [1; 256; 256])
                Reference.volume (Reference.channel_net 1 1) 0 [] [] Reference.world0)
      as [_ H].
    apply H. reflexivity.
Defined.

Lemma output_shape_witness :
  exists out : Tensor,
    outcome_of (call Reference.one_tile_call Reference.coronal_inferer Reference.volume
                  (Reference.channel_net 3 1) 0 [] [] Reference.world0) = Return out
    /\ shape out = [1; 3; 64; 256; 256].
Proof.
  apply (output_shape Reference.one_tile_call Reference.coronal_inferer Reference.volume
           (Reference.channel_net 3 1) 0 [] [] Reference.world0 1 1 64 256 256 3 64 256).
  - exact one_tile_meets_contract.
  - reflexivity.
  - reflexivity.
  - lia.
  - lia.
  - cbn. lia.
  - intros x b w0 Hx. now apply (channel_net_shape 3 1 x b 1 [64; 256] w0).
Defined.

Lemma unsupported_roi_rank_witness :
  call Reference.one_tile_call (init 0 [8; 8; 8; 8] 1 (-1)) Reference.volume
       (Reference.channel_net 1 1) 0 [] [] Reference.world0
  = (init 0 [8; 8; 8; 8] 1 (-1), Raise (RuntimeError broadcast_msg), Reference.world0).
Proof.
  apply unsupported_roi_rank; cbn; lia.
Defined.

Lemma normalization_cached_witness :
  let self1 := inferer_after (call Reference.one_tile_call Reference.axial_inferer
                                Reference.volume (Reference.channel_net 1 1) 0 [] []
                                Reference.world0) in
  let self2 := inferer_after (call Reference.one_tile_call self1
                                (mkTensor 2 [2; 1; 32; 256; 256])
                                (Reference.channel_net 1 3) 0 [] []
                                Reference.world0) in
  roi_size self1 = [1; 256; 256] /\ roi_size self2 = roi_size self1.
Proof.
  intros self1 self2. split; [reflexivity |].
  apply (normalization_cached Reference.one_tile_call Reference.axial_inferer
           Reference.volume (mkTensor 2 [2; 1; 32; 256; 256])
           (Reference.channel_net 1 1) (Reference.channel_net 1 3)
           0 0 [] [] [] [] Reference.world0 Reference.world0);
    reflexivity.
Defined.

Lemma errors_propagate_witness :
  exists self' w',
    call Reference.one_tile_call Reference.axial_inferer Reference.volume
         (Reference.failing_net (OtherError "CUDA out of memory")) 0 [] []
         Reference.world0
    = (self', Raise (OtherError "CUDA out of memory"), w').
Proof.
  destruct (errors_propagate Reference.one_tile_call Reference.axial_inferer
              Reference.volume (Reference.failing_net (OtherError "CUDA out of memory"))
              0 [] [] Reference.world0 (OtherError "CUDA out of memory"))
    as (_ & _ & H).
  apply H.
  - exact one_tile_surfaces_errors.
  - cbn. lia.
  - reflexivity.
  - left. reflexivity.
  - intros x a k w0. exists w0. reflexivity.
Defined.

Lemma deterministic_and_input_untouched_witness :
  let fresh := Reference.axial_inferer in
  let used := inferer_after (call Reference.one_tile_call fresh
                               (mkTensor 2 [2; 1; 32; 256; 256])
                               (Reference.channel_net 1 3) 0 [] [] Reference.world0) in
  call Reference.one_tile_call fresh Reference.volume (Reference.channel_net 1 1)
       0 [] [] Reference.world0
  = call Reference.one_tile_call used Reference.volume (Reference.channel_net 1 1)
         0 [] [] Reference.world0
  /\ world_after (call Reference.one_tile_call fresh Reference.volume
                    (Reference.channel_net 1 1) 0 [] [] Reference.world0) !! 0%nat
     = Reference.world0 !! 0%nat.
Proof.
  intros fresh used.
  destruct (deterministic_and_input_untouched Reference.one_tile_call fresh fresh used
              Reference.volume (Reference.channel_net 1 1) 0 [] [] Reference.world0)
    as [Hdet Hframe].
  - apply after_init.
  - apply after_call, after_init.
  - reflexivity.
  - split; [exact Hdet |].
    apply Hframe.
    + intros x a k. apply channel_net_preserves. discriminate.
    + intros self' predictor Hpred. now apply one_tile_preserves.
Defined.

(** ** Further properties of the call *)

(** X1. The slice-axis assertion comes first: with [spatial_dim >= 3] the
    call raises the assertion error whatever the ROI and the input are (also
    when the ROI rank could not be broadcast), and leaves the instance and
    the store alone, for every inherited call. *)
Theorem large_spatial_dim_rejected
    (super_call : YourSlidingWindowInferer -> Tensor -> Network -> Args -> Kwargs -> Py Tensor)
    (self : YourSlidingWindowInferer) (inputs : Tensor) (network : Network)
    (slice_axis : Z) (args : Args) (kwargs : Kwargs) (w : World) :
  3 <= spatial_dim self ->
  call super_call self inputs network slice_axis args kwargs w =
    (self, Raise (AssertionError assert_msg), w).
Proof.
  intros Hsd. rewrite call_effective. unfold effective.
  destruct (Z.leb_spec 3 (spatial_dim self)) as [_ | Hlt]; [reflexivity | lia].
Qed.

Lemma large_spatial_dim_rejected_witness :
  call Reference.one_tile_call (init 3 [8; 8; 8; 8] 1 (-1)) Reference.volume
       (Reference.channel_net 1 1) 0 [] [] Reference.world0
  = (init 3 [8; 8; 8; 8] 1 (-1), Raise (AssertionError assert_msg), Reference.world0).
Proof.
  apply large_spatial_dim_rejected. cbn. lia.
Defined.

(** X2. What a sequence of calls can do to an instance: [spatial_dim],
    [sw_batch_size] and [cval] never change, and [roi_size] is either the one
    given at construction or, for a rank-2 ROI, that one with a single 1
    inserted; its rank never shrinks and grows by at most one. *)
Theorem instance_invariant
    (super_call : YourSlidingWindowInferer -> Tensor -> Network -> Args -> Kwargs -> Py Tensor)
    (self0 self : YourSlidingWindowInferer) :
  after_calls super_call self0 self ->
  spatial_dim self = spatial_dim self0
  /\ sw_batch_size self = sw_batch_size self0
  /\ cval self = cval self0
  /\ (roi_size self = roi_size self0
      \/ (length (roi_size self0) = 2%nat
          /\ roi_size self = py_insert (roi_size self0) (spatial_dim self0) 1))
  /\ (length (roi_size self0) <= length (roi_size self) <= S (length (roi_size self0)))%nat.
Proof.
  intros Hreach.
  destruct (after_calls_inv super_call self0 self Hreach) as [-> | (Hsd & Hroi & ->)].
  - repeat split; auto; lia.
  - unfold set_roi_size. cbn [spatial_dim roi_size sw_batch_size cval].
    rewrite py_insert_length. repeat split; auto; lia.
Qed.

Lemma instance_invariant_witness :
  let self1 := inferer_after (call Reference.one_tile_call Reference.coronal_inferer
                                Reference.volume (Reference.channel_net 1 1) 0 [] []
                                Reference.world0) in
  let self2 := inferer_after (call Reference.one_tile_call self1
                                (mkTensor 2 [1; 1; 8; 8])
                                (Reference.channel_net 1 3) 0 [] [] Reference.world0) in
  spatial_dim self2 = 1 /\ (length (roi_size self2) <= 3)%nat.
Proof.
  intros self1 self2.
  destruct (instance_invariant Reference.one_tile_call Reference.coronal_inferer self2)
    as (Hsd & _ & _ & _ & Hlen).
  - apply after_call, after_call, after_init.
  - split; [exact Hsd | exact (proj2 Hlen)].
Defined.






(** ** Further properties of the adapter *)

Lemma reinsert_deleted {A : Type} (l : list A) (a : nat) (v : A) :
  l !! a = Some v ->
  take a (delete a l) ++ v :: drop a (delete a l) = l.
Proof.
  revert a. induction l as [| x l IH]; intros [| a] Hv; try discriminate.
  - injection Hv as ->. reflexivity.
  - change (x :: take a (delete a l) ++ v :: drop a (delete a l) = x :: l).
    f_equal. now apply IH.
Qed.

(** X5. Squeeze and unsqueeze are inverse around the network: on a tile
    [(b, c, roi...)] with extent 1 along the slice axis, when the network
    maps the squeezed view to [(b, c_out, ...)] over the same spatial
    extents, the adapter returns [(b, c_out, roi...)] on the storage of the
    network's output, with the store as the network left it. For a network
    that returns its input, the adapter returns the tile. *)
Theorem adapter_restores_tile_shape (self : YourSlidingWindowInferer) (network : Network)
    (x : Tensor) (args : Args) (kwargs : Kwargs) (w w' : World) (b c c_out : Z)
    (out : Tensor) :
  0 <= spatial_dim self <= 2 ->
  shape x = b :: c :: roi_size self ->
  roi_size self !! Z.to_nat (spatial_dim self) = Some 1 ->
  network (mkTensor (storage x)
             (b :: c :: delete (Z.to_nat (spatial_dim self)) (roi_size self)))
          args kwargs w = (Return out, w') ->
  shape out = b :: c_out :: delete (Z.to_nat (spatial_dim self)) (roi_size self) ->
  network_wrapper self network x args kwargs w
    = (Return (mkTensor (storage out) (b :: c_out :: roi_size self)), w').
Proof.
  intros Hsd Hx Hone Hrun Hshape.
  rewrite (network_wrapper_2d self network x args kwargs w b c Hsd Hx Hone).
  unfold mbind, Py_bind. rewrite Hrun.
  set (a := Z.to_nat (spatial_dim self)) in *.
  replace (spatial_dim self + 2) with (Z.of_nat (S (S a))) by (subst a; lia).
  pose proof (lookup_lt_Some _ _ _ Hone) as Hlt.
  rewrite unsqueeze_in_range.
  - rewrite Hshape.
    change (take (S (S a)) (b :: c_out :: delete a (roi_size self)))
      with (b :: c_out :: take a (delete a (roi_size self))).
    change (drop (S (S a)) (b :: c_out :: delete a (roi_size self)))
      with (drop a (delete a (roi_size self))).
    change ((b :: c_out :: take a (delete a (roi_size self)))
            ++ 1 :: drop a (delete a (roi_size self)))
      with (b :: c_out :: (take a (delete a (roi_size self))
                           ++ 1 :: drop a (delete a (roi_size self)))).
    now rewrite (reinsert_deleted (roi_size self) a 1 Hone).
  - rewrite Hshape. cbn [length]. rewrite length_delete by (rewrite Hone; eauto). lia.
Qed.

Lemma adapter_restores_tile_shape_witness :
  let self := init 1 [64; 1; 256] 1 (-1) in
  let tile := mkTensor 5 [2; 1; 64; 1; 256] in
  network_wrapper self (fun x _ _ => mret x) tile [] [] Reference.world0
  = (Return tile, Reference.world0).
Proof.
  intros self tile.
  apply (adapter_restores_tile_shape self (fun x _ _ => mret x) tile [] []
           Reference.world0 Reference.world0 2 1 1
           (mkTensor 5 [2; 1; 64; 256])).
  - cbn. lia.
  - reflexivity.
  - reflexivity.
  - reflexivity.
  - reflexivity.
Defined.

(** X6. When [spatial_dim] does not index the stored ROI (below [-len] or
    at least [len]), the adapter raises [IndexError] on every tile before the
    network is called: the outcome and the store do not depend on the
    network. *)
Theorem adapter_axis_out_of_range (self : YourSlidingWindowInferer) (network : Network)
    (x : Tensor) (args : Args) (kwargs : Kwargs) (w : World) :
  spatial_dim self < - py_len (roi_size self) \/ py_len (roi_size self) <= spatial_dim self ->
  network_wrapper self network x args kwargs w
    = (Raise (IndexError "list index out of range"), w).
Proof.
  intros Hrange. unfold network_wrapper, py_getitem.
  unfold mbind at 1, Py_bind at 1.
  assert (0 <= py_len (roi_size self)) as Hlen by (unfold py_len; lia).
  destruct (Z.ltb_spec (spatial_dim self) 0) as [Hneg | Hpos].
  - destruct (Z.ltb_spec (spatial_dim self + py_len (roi_size self)) 0) as [_ | H];
      [reflexivity | lia].
  - destruct (Z.ltb_spec (spatial_dim self) 0) as [H | _]; [lia |].
    destruct (Z.leb_spec (py_len (roi_size self)) (spatial_dim self)) as [_ | H];
      [reflexivity | lia].
Qed.

Lemma adapter_axis_out_of_range_witness :
  network_wrapper (init 2 [256; 256] 1 (-1)) (Reference.channel_net 1 1)
                  (mkTensor 0 [1; 1; 256; 256]) [] [] Reference.world0
  = (Raise (IndexError "list index out of range"), Reference.world0).
Proof.
  apply adapter_axis_out_of_range. right. unfold py_len. simpl. lia.
Defined.

(** X7. A network whose output has fewer than [spatial_dim + 2] axes (a
    classifier returning [(b, classes)] with [spatial_dim = 1] or [2]) makes
    the adapter raise [IndexError] when it unsqueezes, after the network has
    run: the store is as the network left it and no tensor is returned. *)
Theorem adapter_rejects_low_rank_output (self : YourSlidingWindowInferer)
    (network : Network) (x : Tensor) (args : Args) (kwargs : Kwargs) (w w' : World)
    (b c : Z) (out : Tensor) :
  0 <= spatial_dim self <= 2 ->
  shape x = b :: c :: roi_size self ->
  roi_size self !! Z.to_nat (spatial_dim self) = Some 1 ->
  network (mkTensor (storage x)
             (b :: c :: delete (Z.to_nat (spatial_dim self)) (roi_size self)))
          args kwargs w = (Return out, w') ->
  py_len (shape out) < spatial_dim self + 2 ->
  network_wrapper self network x args kwargs w
    = (Raise (IndexError "Dimension out of range"), w').
Proof.
  intros Hsd Hx Hone Hrun Hrank.
  rewrite (network_wrapper_2d self network x args kwargs w b c Hsd Hx Hone).
  unfold mbind at 1, Py_bind at 1. rewrite Hrun.
  unfold unsqueeze, wrap_dim.
  assert (0 <= py_len (shape out)) as Hlen by (unfold py_len; lia).
  destruct (Z.ltb_spec (spatial_dim self + 2) (- (py_len (shape out) + 1))) as [H | _]; [lia |].
  destruct (Z.leb_spec (py_len (shape out) + 1) (spatial_dim self + 2)) as [_ | H]; [| lia].
  reflexivity.
Qed.

Lemma adapter_rejects_low_rank_output_witness :
  network_wrapper (init 2 [64; 256; 1] 1 (-1))
                  (fun x _ _ => mret (mkTensor 9 [4; 10]))
                  (mkTensor 0 [4; 1; 64; 256; 1]) [] [] Reference.world0
  = (Raise (IndexError "Dimension out of range"), Reference.world0).
Proof.
  apply (adapter_rejects_low_rank_output (init 2 [64; 256; 1] 1 (-1))
           (fun x _ _ => mret (mkTensor 9 [4; 10]))
           (mkTensor 0 [4; 1; 64; 256; 1]) [] [] Reference.world0 Reference.world0
           4 1 (mkTensor 9 [4; 10])).
  - cbn. lia.
  - reflexivity.
  - reflexivity.
  - reflexivity.
  - unfold py_len. simpl. lia.
Defined.




